(** * J.A.R.V.I.S. chat front-end: history codec, tool registry, orchestrator

    A shallow embedding of [app.py]: the history codec
    ([serialize_content], [deserialize_content]), the tool
    [check_health_status], the orchestrator [get_gemini_response] and the
    two Flask routes [index] and [ask].

    Conventions.
    - A Python [str] is a [string] holding its UTF-8 bytes; substring
      search on well-formed UTF-8 coincides with substring search on code
      points.
    - [None] is the [None] of an [option]; a [dict] with string keys is a
      [gmap string _]; [d['k']] on a missing key raises [KeyError].
    - The external client, [str.lower] and the wording of the
      interpreter's own error messages are parameters of the development. *)

From Stdlib Require Import Ascii String ZArith.
From stdpp Require Import gmap strings list fin_maps.

Local Open Scope string_scope.
Local Open Scope list_scope.

(** ** Python values and exceptions *)

(** Scalar values of a JSON-decoded mapping (tool arguments, tool results). *)
Inductive pyval :=
| PyNone
| PyBool (b : bool)
| PyInt (n : Z)
| PyStr (s : string).

#[global] Instance pyval_eq_dec : EqDecision pyval.
Proof. solve_decision. Defined.

(** Errors the interpreter itself raises on the paths of [app.py]. *)
Inductive interp_error :=
| KeyError (key : string)          (* d[key] on a dict without key *)
| NoneNotIterable                  (* dict(None) *)
| UnexpectedKeyword (key : string) (* keyword call with a name the function does not take *)
| MissingArgument                  (* keyword call without a required name *)
| NoAttribute (v : pyval)          (* v.lower() on a value that is no str *)
| NoneNotSubscriptable             (* None[0] *)
| IndexOutOfRange.                 (* [][0] *)

(** Instances of [Exception]: what the external client raises, carrying
    the text [str(e)] renders, or an interpreter error. *)
Inductive exn :=
| ClientError (text : string)
| Interp (err : interp_error).

Inductive outcome (A : Type) :=
| Return (a : A)
| Raise (e : exn).
Arguments Return {A} a.
Arguments Raise {A} e.

(** ** The client library's message types *)

Record FunctionCall := {
  fc_name : option string;
  fc_args : option (gmap string pyval)
}.

Record FunctionResponse := {
  fr_name : option string;
  fr_response : gmap string pyval
}.

(** A part carries one kind of payload; [part_text] is its [.text]. *)
Inductive Part :=
| TextPart (text : option string)
| FunctionCallPart (fc : FunctionCall)
| FunctionResponsePart (fr : FunctionResponse).

Definition part_text (p : Part) : option string :=
  match p with
  | TextPart t => t
  | _ => None
  end.

Record Content := {
  role : option string;
  parts : option (list Part)
}.

Record Candidate := { content : option Content }.

(** The three observations [app.py] makes of a reply. *)
Record GenerateContentResponse := {
  text : option string;
  function_calls : option (list FunctionCall);
  candidates : option (list Candidate)
}.

Record GenerateContentConfig := {
  tools : list string;
  system_instruction : string
}.

Record Request := {
  model : string;
  contents : list (option Content);
  config : GenerateContentConfig
}.

(** Truth value of an optional string: [None] and [''] are falsy. *)
Definition truthy (o : option string) : bool :=
  match o with
  | Some (String _ _) => true
  | _ => false
  end.

(** ** History codec *)

(** The flat record kept in the session: a dict with string or [None]
    values. *)
Abbreviation flat_record := (gmap string (option string)).

Definition serialize_content (c : option Content) : option flat_record :=
  match c with
  | Some c =>
      match parts c with
      | Some (p :: _) =>
          if truthy (part_text p)
          then Some {[ "role" := role c; "text" := part_text p ]}
          else None
      | _ => None
      end
  | None => None
  end.

Definition deserialize_content (data : option flat_record)
  : outcome (option Content) :=
  match data with
  | None => Return None
  | Some d =>
      if bool_decide (d = ∅) then Return None else
      match d !! "role" with
      | None => Raise (Interp (KeyError "role"))
      | Some r =>
          if truthy r then
            match d !! "text" with
            | None => Raise (Interp (KeyError "text"))
            | Some t =>
                if truthy t
                then Return (Some {| role := r; parts := Some [TextPart t] |})
                else Return None
            end
          else Return None
      end
  end.

(** [content.parts[0].text] when the turn has a first part. *)
Definition first_text (t : Content) : option string :=
  match parts t with
  | Some (p :: _) => part_text p
  | _ => None
  end.

(** ** Substring search: Python's [needle in hay] on [str] *)

Fixpoint starts_with (needle hay : string) : bool :=
  match needle, hay with
  | EmptyString, _ => true
  | String a needle', String b hay' =>
      if Ascii.eqb a b then starts_with needle' hay' else false
  | String _ _, EmptyString => false
  end.

Fixpoint contains (needle hay : string) : bool :=
  starts_with needle hay ||
  match hay with
  | EmptyString => false
  | String _ hay' => contains needle hay'
  end.

(** [needle] occurs in [hay] as a contiguous run. *)
Definition occurs_in (needle hay : string) : Prop :=
  ∃ pre post, hay = pre +:+ needle +:+ post.

(** ** Tool registry *)

Definition movement_keyword : string := "movimiento".
Definition pressure_keyword : string := "presión".

Definition movement_status : string :=
  "El último movimiento registrado fue hace 2 horas en la sala. Es hora de un recordatorio para caminar un poco.".

Definition pressure_status : string :=
  "Presión arterial registrada: 145/90. Ligeramente alta. Se recomienda descanso y reevaluación en 15 minutos.".

Definition not_monitored (metric : string) : string :=
  "Métrica de salud '" +:+ metric +:+ "' no monitoreada actualmente.".

Definition unavailable : string :=
  "Resultado: La función solicitada no está disponible.".

(** The keyword a call of the tool reports as unexpected: one of the
    mapping other than [metric]. CPython names the first such keyword in
    the mapping's insertion order, which a [gmap] does not record; where
    there are several, the model names the first in the map's own order. *)
Definition unexpected_keyword (kwargs : gmap string pyval) : string :=
  default "" (head (map_to_list (delete "metric" kwargs)).*1).

Section Tool.

(** [str.lower] of the interpreter. *)
Variable lower : string → string.

Definition check_health_status (metric : string) : string :=
  if contains movement_keyword (lower metric) then movement_status
  else if contains pressure_keyword (lower metric) then pressure_status
  else not_monitored metric.

(** The tool called with the mapping [kwargs] unpacked as keywords: the
    call binds exactly the keyword [metric]; the body then calls
    [metric.lower()]. *)
Definition call_check_health_status (kwargs : gmap string pyval)
  : outcome string :=
  match kwargs !! "metric" with
  | Some v =>
      if bool_decide (delete "metric" kwargs = ∅) then
        match v with
        | PyStr metric => Return (check_health_status metric)
        | _ => Raise (Interp (NoAttribute v))
        end
      else Raise (Interp (UnexpectedKeyword (unexpected_keyword kwargs)))
  | None =>
      if bool_decide (kwargs = ∅)
      then Raise (Interp MissingArgument)
      else Raise (Interp (UnexpectedKeyword (unexpected_keyword kwargs)))
  end.

End Tool.

(** A lower-casing that agrees with [str.lower] on text of the Basic Latin
    and Latin-1 Supplement blocks (UTF-8 lead byte 195 for the latter);
    used to run the tool on concrete inputs. *)
Definition lower_byte (a : ascii) : ascii :=
  let n := nat_of_ascii a in
  if (65 <=? n)%nat && (n <=? 90)%nat then ascii_of_nat (n + 32) else a.

Definition lower_latin1_trail (a : ascii) : ascii :=
  let n := nat_of_ascii a in
  if (128 <=? n)%nat && (n <=? 158)%nat && negb (n =? 151)%nat
  then ascii_of_nat (n + 32) else a.

Fixpoint lower_latin1 (s : string) : string :=
  match s with
  | EmptyString => EmptyString
  | String a s' =>
      if (nat_of_ascii a =? 195)%nat then
        match s' with
        | EmptyString => String a EmptyString
        | String b s'' => String a (String (lower_latin1_trail b) (lower_latin1 s''))
        end
      else String (lower_byte a) (lower_latin1 s')
  end.

(** ** The interpreter's odds and ends *)

(** [dict(args)]. *)
Definition py_dict (args : option (gmap string pyval))
  : outcome (gmap string pyval) :=
  match args with
  | Some kwargs => Return kwargs
  | None => Raise (Interp NoneNotIterable)
  end.

(** [response.candidates[0].content]. *)
Definition first_candidate_content (cs : option (list Candidate))
  : outcome (option Content) :=
  match cs with
  | None => Raise (Interp NoneNotSubscriptable)
  | Some [] => Raise (Interp IndexOutOfRange)
  | Some (c :: _) => Return (content c)
  end.

(** A list comprehension whose element expression may raise. *)
Fixpoint comprehension {A B} (f : A → outcome B) (l : list A)
  : outcome (list B) :=
  match l with
  | [] => Return []
  | x :: l' =>
      match f x with
      | Raise e => Raise e
      | Return y =>
          match comprehension f l' with
          | Raise e => Raise e
          | Return ys => Return (y :: ys)
          end
      end
  end.

(** [[item for item in l if item is not None]]. *)
Fixpoint not_none {A} (l : list (option A)) : list A :=
  match l with
  | [] => []
  | Some x :: l' => x :: not_none l'
  | None :: l' => not_none l'
  end.

Definition user_turn (user_input : string) : Content :=
  {| role := Some "user"; parts := Some [TextPart (Some user_input)] |}.

Definition model_turn (ai_response_text : option string) : Content :=
  {| role := Some "model"; parts := Some [TextPart ai_response_text] |}.

(** [types.Content] validates every element of [parts] into a [Part],
    reading the fields of a part off the element. A [FunctionResponse]
    has none of them: listed bare in [parts], it becomes the part without
    any payload, and its name and response are lost. *)
Definition bare_in_parts (fr : FunctionResponse) : Part := TextPart None.

(** The function-result turn: the source lists the [FunctionResponse]
    itself in [parts], with no part around it. *)
Definition function_turn (function_name : option string)
    (function_result : string) : Content :=
  {| role := Some "function";
     parts := Some [bare_in_parts
                      {| fr_name := function_name;
                         fr_response := {[ "result" := PyStr function_result ]} |}] |}.

Definition system_instruction_text : string :=
  "Eres J.A.R.V.I.S., un asistente virtual experto en cuidado, diseñado para personas mayores. " +:+
  "Utiliza un lenguaje **cálido, simple y muy legible**. No uses abreviaturas ni jerga compleja. " +:+
  "Tu principal objetivo es la seguridad y la comodidad del usuario. Usa las herramientas de Function Calling cuando sea apropiado.".

Definition tools_list : list string := ["check_health_status"].

Definition request_for (cs : list (option Content)) : Request :=
  {| model := "gemini-2.5-flash";
     contents := cs;
     config := {| tools := tools_list;
                  system_instruction := system_instruction_text |} |}.

(** The transcript of the first call: the history, then the new user turn. *)
Definition first_transcript (chat_history : list Content)
    (user_input : string) : list (option Content) :=
  (Some <$> chat_history) ++ [Some (user_turn user_input)].

(** The transcript of the second call: the model's tool-call turn and the
    function-result turn appended. *)
Definition second_transcript (chat_history : list Content)
    (user_input : string) (tool_call_turn : option Content)
    (function_name : option string) (function_result : string)
  : list (option Content) :=
  first_transcript chat_history user_input ++
  [tool_call_turn; Some (function_turn function_name function_result)].

(** The session holds, under the key [chat_history], a list whose items
    are flat records or [None]. *)
Abbreviation stored_history := (list (option flat_record)).

(** The JSON object of a reply of [/ask]. *)
Abbreviation json := (gmap string (option string)).

(** ** Orchestrator and routes, over an arbitrary external client *)

Section App.

Variable lower : string → string.

(** [str(e)] for the interpreter's own errors. *)
Variable interp_text : interp_error → string.

(** The external service: a state and the reply, or the exception, of one
    [generate_content] call. *)
Variable World : Type.
Variable generate_content :
  Request → World → outcome GenerateContentResponse * World.

Definition str_exn (e : exn) : string :=
  match e with
  | ClientError t => t
  | Interp err => interp_text err
  end.

Definition apology (e : exn) : string :=
  "Lo siento, ocurrió un error en el sistema: " +:+ str_exn e +:+
  ". Intenta de nuevo.".

(** What a request handler can touch: the external service, the log of
    the requests sent to it, and the session. *)
Record State := {
  client : World;
  calls : list Request;
  session : gmap string stored_history
}.

Definition M (A : Type) : Type := State → outcome A * State.

#[local] Instance M_ret : MRet M := λ A a st, (Return a, st).

#[local] Instance M_bind : MBind M := λ A B f m st,
  match m st with
  | (Return a, st') => f a st'
  | (Raise e, st') => (Raise e, st')
  end.

Definition lift {A} (o : outcome A) : M A := λ st, (o, st).

(** [try: body except Exception as e: handler e]; what the body did to
    the state before raising stays done. *)
Definition try_except {A} (body : M A) (handler : exn → M A) : M A :=
  λ st,
    match body st with
    | (Return a, st') => (Return a, st')
    | (Raise e, st') => handler e st'
    end.

(** [client.models.generate_content(...)]: the request is logged, the
    service answers. *)
Definition generate (req : Request) : M GenerateContentResponse :=
  λ st,
    let '(r, w) := generate_content req (client st) in
    (r, {| client := w; calls := calls st ++ [req]; session := session st |}).

Definition get_gemini_response (user_input : string)
    (chat_history : list Content) : M (option string) :=
  let contents := first_transcript chat_history user_input in
  try_except
    (response ← generate (request_for contents);
     match function_calls response with
     | Some (function_call :: _) =>
         let function_name := fc_name function_call in
         function_args ← lift (py_dict (fc_args function_call));
         function_result ←
           (if bool_decide (function_name = Some "check_health_status")
            then lift (call_check_health_status lower function_args)
            else mret unavailable);
         tool_call_turn ← lift (first_candidate_content (candidates response));
         let contents :=
           contents ++ [tool_call_turn;
                        Some (function_turn function_name function_result)] in
         second_response ← generate (request_for contents);
         mret (text second_response)
     | _ => mret (text response)
     end)
    (λ e, mret (Some (apology e))).

Definition session_get (key : string) (fallback : stored_history)
  : M stored_history :=
  λ st, (Return (default fallback (session st !! key)), st).

Definition session_set (key : string) (v : stored_history) : M unit :=
  λ st, (Return (),
         {| client := client st; calls := calls st;
            session := <[key := v]> (session st) |}).

(** [GET /]: the value is the history handed to the page template. *)
Definition index : M stored_history :=
  λ st,
    match session st !! "chat_history" with
    | Some h => (Return h, st)
    | None => (session_set "chat_history" [] ;; mret []) st
    end.

(** [POST /ask]: the JSON body and the status code. *)
Definition ask (form : gmap string string) : M (json * Z) :=
  let user_input := form !! "user_input" in
  if negb (truthy user_input)
  then mret ({[ "error" := Some "No se recibió mensaje" ]}, 400%Z)
  else
    let user_input := default "" user_input in
    serialized_history ← session_get "chat_history" [];
    gemini_history ← lift (comprehension deserialize_content serialized_history);
    let gemini_history := not_none gemini_history in
    ai_response_text ← get_gemini_response user_input gemini_history;
    let new_user_content := user_turn user_input in
    let new_model_content := model_turn ai_response_text in
    let serialized_history :=
      serialized_history ++ [serialize_content (Some new_user_content)] in
    let serialized_history :=
      serialized_history ++ [serialize_content (Some new_model_content)] in
    session_set "chat_history" serialized_history ;;
    mret ({[ "response" := ai_response_text;
             "user_input" := Some user_input ]}, 200%Z).

(** *** The states a session goes through *)

(** The stored history as [ask] reads it: [session.get('chat_history', [])]. *)
Definition stored_of (st : State) : stored_history :=
  default [] (session st !! "chat_history").

(** One stored item decoded, a raising item counted as skipped. *)
Definition decode_item (item : option flat_record) : option Content :=
  match deserialize_content item with
  | Return c => c
  | Raise _ => None
  end.

(** The rich history [ask] hands to the orchestrator. *)
Definition history_of (st : State) : list Content :=
  not_none (decode_item <$> stored_of st).

(** A stored item that decodes without raising: [None], or a record with
    both fields. *)
Definition well_keyed (item : option flat_record) : Prop :=
  match item with
  | None => True
  | Some d => is_Some (d !! "role") ∧ is_Some (d !! "text")
  end.

(** The states reached from an empty session by the two routes. *)
Inductive reachable : State → Prop :=
| reachable_boot (w : World) :
    reachable {| client := w; calls := []; session := ∅ |}
| reachable_index (st : State) :
    reachable st → reachable (index st).2
| reachable_ask (form : gmap string string) (st : State) :
    reachable st → reachable (ask form st).2.

(** The tool result of a dispatched call. *)
Definition dispatch (function_name : option string)
    (function_args : gmap string pyval) : outcome string :=
  if bool_decide (function_name = Some "check_health_status")
  then call_check_health_status lower function_args
  else Return unavailable.

(** [raised_in_flight user_input chat_history st e st']: while answering
    [user_input] from state [st], the exception [e] is raised by the first
    external call, by the tool function, or by the second external call,
    leaving the state [st']. *)
Inductive raised_in_flight (user_input : string) (chat_history : list Content)
    (st : State) : exn → State → Prop :=
| raised_by_first_call (e : exn) (w : World) :
    generate_content
      (request_for (first_transcript chat_history user_input)) (client st)
      = (Raise e, w) →
    raised_in_flight user_input chat_history st e
      {| client := w;
         calls := calls st ++
           [request_for (first_transcript chat_history user_input)];
         session := session st |}
| raised_by_tool (e : exn) (w : World) (r : GenerateContentResponse)
    (function_call : FunctionCall) (others : list FunctionCall)
    (function_args : gmap string pyval) :
    generate_content
      (request_for (first_transcript chat_history user_input)) (client st)
      = (Return r, w) →
    function_calls r = Some (function_call :: others) →
    fc_name function_call = Some "check_health_status" →
    fc_args function_call = Some function_args →
    call_check_health_status lower function_args = Raise e →
    raised_in_flight user_input chat_history st e
      {| client := w;
         calls := calls st ++
           [request_for (first_transcript chat_history user_input)];
         session := session st |}
| raised_by_second_call (e : exn) (w w' : World) (r : GenerateContentResponse)
    (function_call : FunctionCall) (others : list FunctionCall)
    (function_args : gmap string pyval) (function_result : string)
    (tool_call_turn : option Content) :
    generate_content
      (request_for (first_transcript chat_history user_input)) (client st)
      = (Return r, w) →
    function_calls r = Some (function_call :: others) →
    fc_args function_call = Some function_args →
    dispatch (fc_name function_call) function_args = Return function_result →
    first_candidate_content (candidates r) = Return tool_call_turn →
    generate_content
      (request_for (second_transcript chat_history user_input tool_call_turn
                      (fc_name function_call) function_result)) w
      = (Raise e, w') →
    raised_in_flight user_input chat_history st e
      {| client := w';
         calls := calls st ++
           [request_for (first_transcript chat_history user_input);
            request_for (second_transcript chat_history user_input
                           tool_call_turn (fc_name function_call)
                           function_result)];
         session := session st |}.

(** The state [ask] leaves after a served request: the two encoded turns
    appended to the stored history. *)
Definition store_turns (user_input : string) (reply : option string)
    (before after : State) : State :=
  {| client := client after;
     calls := calls after;
     session :=
       <[ "chat_history" :=
            stored_of before ++
            [serialize_content (Some (user_turn user_input));
             serialize_content (Some (model_turn reply))] ]>
         (session after) |}.

End App.

Arguments client {World} _.
Arguments calls {World} _.
Arguments session {World} _.
Arguments Build_State {World} _ _ _.
Arguments stored_of {World} _.
Arguments history_of {World} _.
Arguments store_turns {World} _ _ _ _.
Arguments get_gemini_response lower interp_text {World} generate_content _ _ _.
Arguments ask lower interp_text {World} generate_content _ _.
Arguments index {World} _.
Arguments reachable lower interp_text {World} generate_content _.

(** ** Shapes of stored histories, runs of requests *)

Definition user_record (user_input : string) : flat_record :=
  {[ "role" := Some "user"; "text" := Some user_input ]}.

Definition model_record (reply : string) : flat_record :=
  {[ "role" := Some "model"; "text" := Some reply ]}.

(** A history made of exchanges: a user record with a message, then the
    model record with the reply or, for a reply without text, [None]. *)
Inductive turn_pairs : stored_history → Prop :=
| turn_pairs_nil : turn_pairs []
| turn_pairs_snoc (h : stored_history) (user_input : string)
    (m : option flat_record) :
    turn_pairs h →
    user_input ≠ "" →
    m = None ∨ (∃ reply, reply ≠ "" ∧ m = Some (model_record reply)) →
    turn_pairs (h ++ [Some (user_record user_input); m]).

(** The state with another session, the service and its log kept. *)
Definition set_session {World : Type} (s : gmap string stored_history)
    (st : State World) : State World :=
  {| client := client st; calls := calls st; session := s |}.

Section Runs.

Variable lower : string → string.
Variable interp_text : interp_error → string.
Variable World : Type.
Variable generate_content :
  Request → World → outcome GenerateContentResponse * World.

(** One request to either route. *)
Inductive route_step (st : State World) : State World → Prop :=
| step_index : route_step st (index st).2
| step_ask (form : gmap string string) :
    route_step st (ask lower interp_text generate_content form st).2.

End Runs.

(** ** A scripted external client, to run the routes on concrete inputs *)

(** The service answers from a script, one entry per call, and refuses
    once the script is used up. *)
Definition scripted (req : Request)
    (script : list (outcome GenerateContentResponse))
  : outcome GenerateContentResponse * list (outcome GenerateContentResponse) :=
  match script with
  | r :: script' => (r, script')
  | [] => (Raise (ClientError "no reply"), [])
  end.

(** The name of a value's type, as error messages give it. *)
Definition type_name (v : pyval) : string :=
  match v with
  | PyNone => "NoneType"
  | PyBool _ => "bool"
  | PyInt _ => "int"
  | PyStr _ => "str"
  end.

(** The wording of CPython 3.12 for the interpreter's errors. *)
Definition cpython_text (err : interp_error) : string :=
  match err with
  | KeyError key => "'" +:+ key +:+ "'"
  | NoneNotIterable => "'NoneType' object is not iterable"
  | UnexpectedKeyword key =>
      "check_health_status() got an unexpected keyword argument '" +:+ key +:+ "'"
  | MissingArgument =>
      "check_health_status() missing 1 required positional argument: 'metric'"
  | NoAttribute v => "'" +:+ type_name v +:+ "' object has no attribute 'lower'"
  | NoneNotSubscriptable => "'NoneType' object is not subscriptable"
  | IndexOutOfRange => "list index out of range"
  end.

Definition text_reply (t : option string) : GenerateContentResponse :=
  {| text := t;
     function_calls := None;
     candidates :=
       Some [{| content := Some {| role := Some "model";
                                   parts := Some [TextPart t] |} |}] |}.

Definition tool_reply (calls : list FunctionCall) : GenerateContentResponse :=
  {| text := None;
     function_calls := Some calls;
     candidates :=
       Some [{| content := Some {| role := Some "model";
                                   parts := Some (FunctionCallPart <$> calls) |} |}] |}.

Definition boot (script : list (outcome GenerateContentResponse))
  : State (list (outcome GenerateContentResponse)) :=
  {| client := script; calls := []; session := ∅ |}.

Definition run_ask (form : gmap string string)
    (st : State (list (outcome GenerateContentResponse))) :=
  ask lower_latin1 cpython_text scripted form st.

(** The form of a [POST /ask] carrying [user_input]. *)
Definition form_of (user_input : string) : gmap string string :=
  {[ "user_input" := user_input ]}.

Definition run_get_gemini_response (user_input : string)
    (chat_history : list Content)
    (st : State (list (outcome GenerateContentResponse))) :=
  get_gemini_response lower_latin1 cpython_text scripted
    user_input chat_history st.

Definition movement_call : FunctionCall :=
  {| fc_name := Some "check_health_status";
     fc_args := Some {[ "metric" := PyStr "Último MOVIMIENTO" ]} |}.

Definition weather_call : FunctionCall :=
  {| fc_name := Some "get_weather";
     fc_args := Some {[ "city" := PyStr "Lima" ]} |}.

(** A session whose stored history holds a record without the role
    field, as no route writes it. *)
Definition tampered : State (list (outcome GenerateContentResponse)) :=
  {| client := [Return (text_reply (Some "nunca pedido"))];
     calls := [];
     session := {[ "chat_history" := [Some {[ "text" := Some "hola" ]}] ]} |}.

(** * Properties *)

(** ** Truth values and substring search *)

Lemma truthy_nonempty (s : string) : s ≠ "" → truthy (Some s) = true.
Proof. destruct s; [congruence | reflexivity]. Qed.

Lemma truthy_inv (o : option string) :
  truthy o = true → ∃ s, o = Some s ∧ s ≠ "".
Proof.
  destruct o as [[|a s]|]; simpl; try discriminate.
  intros _. exists (String a s). split; [reflexivity | discriminate].
Qed.

Lemma append_cons (a : ascii) (s t : string) :
  String a s +:+ t = String a (s +:+ t).
Proof. reflexivity. Qed.

Lemma append_nil (t : string) : "" +:+ t = t.
Proof. reflexivity. Qed.

Lemma starts_with_spec (needle hay : string) :
  starts_with needle hay = true ↔ ∃ post, hay = needle +:+ post.
Proof.
  revert hay. induction needle as [|a needle IH]; intros hay; simpl.
  - split; [intros _; exists hay; reflexivity | reflexivity].
  - destruct hay as [|b hay].
    + split; [discriminate | intros [post Hpost]].
      rewrite append_cons in Hpost. discriminate.
    + destruct (Ascii.eqb a b) eqn:Hab.
      * apply Ascii.eqb_eq in Hab as ->. rewrite IH.
        split; intros [post Hpost]; exists post;
          rewrite append_cons in *; congruence.
      * apply Ascii.eqb_neq in Hab.
        split; [discriminate | intros [post Hpost]].
        rewrite append_cons in Hpost. congruence.
Qed.

Lemma contains_spec (needle hay : string) :
  contains needle hay = true ↔ occurs_in needle hay.
Proof.
  split.
  - induction hay as [|b hay IH]; simpl; rewrite orb_true_iff.
    + intros [H | H]; [| discriminate].
      apply starts_with_spec in H as [post ->]. exists "", post. reflexivity.
    + intros [H | H].
      * apply starts_with_spec in H as [post Hpost]. exists "", post.
        rewrite append_nil. exact Hpost.
      * destruct (IH H) as (pre & post & ->).
        exists (String b pre), post. reflexivity.
  - intros (pre & post & ->).
    induction pre as [|b pre IH].
    + rewrite append_nil.
      assert (starts_with needle (needle +:+ post) = true) as H
        by (apply starts_with_spec; eauto).
      destruct (needle +:+ post); simpl in *; rewrite H; reflexivity.
    + rewrite append_cons. simpl. rewrite IH. apply orb_true_r.
Qed.

Lemma contains_false (needle hay : string) :
  contains needle hay = false ↔ ¬ occurs_in needle hay.
Proof.
  rewrite <- contains_spec. destruct (contains needle hay); split;
    congruence.
Qed.

(** ** History codec *)

Lemma record_lookup_role (r t : option string) :
  ({[ "role" := r; "text" := t ]} : flat_record) !! "role" = Some r.
Proof. apply lookup_insert_eq. Qed.

Lemma record_lookup_text (r t : option string) :
  ({[ "role" := r; "text" := t ]} : flat_record) !! "text" = Some t.
Proof. rewrite lookup_insert_ne by discriminate. apply lookup_singleton_eq. Qed.

Lemma record_not_empty (r t : option string) :
  ({[ "role" := r; "text" := t ]} : flat_record) ≠ ∅.
Proof. apply insert_non_empty. Qed.

(** C3. A turn with exactly one part, whose text is non-empty, and with a
    set (non-empty) role survives encoding followed by decoding:
    [deserialize_content (serialize_content t)] returns [t] itself. *)
Theorem roundtrip_single_part (t : Content) (p : Part) (r s : string) :
  parts t = Some [p] →
  part_text p = Some s → s ≠ "" →
  role t = Some r → r ≠ "" →
  deserialize_content (serialize_content (Some t)) = Return (Some t).
Proof.
  intros Hparts Htext Hs Hrole Hr.
  destruct t as [ro pa]; simpl in *; subst ro pa.
  destruct p as [tx | fc | fr]; simpl in Htext; try discriminate; subst tx.
  unfold serialize_content. cbn [parts role part_text].
  rewrite (truthy_nonempty s Hs).
  unfold deserialize_content.
  rewrite bool_decide_eq_false_2 by apply record_not_empty.
  rewrite record_lookup_role, (truthy_nonempty r Hr).
  rewrite record_lookup_text, (truthy_nonempty s Hs).
  reflexivity.
Qed.

Lemma roundtrip_single_part_witness :
  deserialize_content (serialize_content (Some (user_turn "hola")))
  = Return (Some (user_turn "hola")).
Proof.
  apply (roundtrip_single_part (user_turn "hola") (TextPart (Some "hola"))
           "user" "hola"); [reflexivity | reflexivity | discriminate
                           | reflexivity | discriminate].
Defined.

(** The loss the codec documents: a second part does not come back. *)
Example roundtrip_drops_second_part :
  deserialize_content
    (serialize_content
       (Some {| role := Some "model";
                parts := Some [TextPart (Some "uno"); TextPart (Some "dos")] |}))
  = Return (Some {| role := Some "model";
                    parts := Some [TextPart (Some "uno")] |}).
Proof. vm_compute. reflexivity. Qed.

(** C4, as stated, fails: a turn whose role is unset but whose first part
    has text is encoded, with [None] in the role field. *)
Lemma serialize_content_keeps_unset_role :
  let t := {| role := None; parts := Some [TextPart (Some "hola")] |} in
  role t = None ∧
  serialize_content (Some t) = Some {[ "role" := None; "text" := Some "hola" ]} ∧
  serialize_content (Some t) ≠ None.
Proof. repeat split; discriminate. Qed.

(** C4, amended. [serialize_content] looks at the first part's text only:
    when the turn has no first part, or that part's text is absent or
    empty, the result is [None]; otherwise it is the record of the turn's
    role, set or not, and the first part's text, later parts dropped. *)
Theorem serialize_content_first_text (t : Content) :
  match first_text t with
  | None | Some "" => serialize_content (Some t) = None
  | Some s =>
      serialize_content (Some t) = Some {[ "role" := role t; "text" := Some s ]}
  end.
Proof.
  unfold first_text, serialize_content.
  destruct (parts t) as [[|p rest]|]; try reflexivity.
  destruct (part_text p) as [[|a s]|]; reflexivity.
Qed.

(** C5, as stated, fails: a record without the role field makes
    [deserialize_content] raise [KeyError] instead of returning [None]. *)
Lemma deserialize_content_missing_role_raises :
  let d : flat_record := {[ "text" := Some "hola" ]} in
  d !! "role" = None ∧
  deserialize_content (Some d) = Raise (Interp (KeyError "role")) ∧
  deserialize_content (Some d) ≠ Return None.
Proof. vm_compute. repeat split; discriminate. Qed.

Lemma decode_keyed (d : flat_record) (r t : option string) :
  d !! "role" = Some r → d !! "text" = Some t →
  deserialize_content (Some d) =
    if truthy r && truthy t
    then Return (Some {| role := r; parts := Some [TextPart t] |})
    else Return None.
Proof.
  intros Hr Ht. unfold deserialize_content.
  case_bool_decide as Hd.
  - subst d. rewrite lookup_empty in Hr. discriminate.
  - rewrite Hr, Ht. destruct (truthy r), (truthy t); reflexivity.
Qed.

(** C5, amended. On a record that holds both fields, [deserialize_content]
    never raises: it returns [None] when the role or the text is falsy
    ([None] or empty), and otherwise the single-part turn of that role and
    text. *)
Theorem deserialize_content_both_fields (d : flat_record)
    (r t : option string) :
  d !! "role" = Some r → d !! "text" = Some t →
  deserialize_content (Some d) =
    if truthy r && truthy t
    then Return (Some {| role := r; parts := Some [TextPart t] |})
    else Return None.
Proof. apply decode_keyed. Qed.

Lemma deserialize_content_both_fields_witness :
  deserialize_content (Some {[ "role" := Some "user"; "text" := Some "hola" ]})
  = Return (Some (user_turn "hola")).
Proof.
  apply (deserialize_content_both_fields
           {[ "role" := Some "user"; "text" := Some "hola" ]}
           (Some "user") (Some "hola")); reflexivity.
Defined.

(** An absent item and an empty record are skipped as well. *)
Lemma deserialize_content_none : deserialize_content None = Return None.
Proof. reflexivity. Qed.

Lemma deserialize_content_empty : deserialize_content (Some ∅) = Return None.
Proof. reflexivity. Qed.

(** ** Tool registry *)

(** C6. [check_health_status] is decided by substring search in the
    lower-cased metric. When it holds [movimiento] the answer is the fixed
    movement status; otherwise, when it holds [presión], the fixed
    blood-pressure reading; otherwise the not-monitored sentence written
    around the metric exactly as it was given, so that the metric occurs
    in the answer. *)
Theorem check_health_status_spec (lower : string → string) (metric : string) :
  (occurs_in "movimiento" (lower metric) →
   check_health_status lower metric
   = "El último movimiento registrado fue hace 2 horas en la sala. Es hora de un recordatorio para caminar un poco.")
  ∧ (¬ occurs_in "movimiento" (lower metric) →
     occurs_in "presión" (lower metric) →
     check_health_status lower metric
     = "Presión arterial registrada: 145/90. Ligeramente alta. Se recomienda descanso y reevaluación en 15 minutos.")
  ∧ (¬ occurs_in "movimiento" (lower metric) →
     ¬ occurs_in "presión" (lower metric) →
     check_health_status lower metric
     = "Métrica de salud '" +:+ metric +:+ "' no monitoreada actualmente."
     ∧ occurs_in metric (check_health_status lower metric)).
Proof.
  unfold check_health_status.
  change "movimiento" with movement_keyword.
  change "presión" with pressure_keyword.
  destruct (contains movement_keyword (lower metric)) eqn:Hmov.
  - apply contains_spec in Hmov.
    split; [reflexivity |]. split; intros Hno; destruct (Hno Hmov).
  - apply contains_false in Hmov. split; [intros H; destruct (Hmov H) |].
    destruct (contains pressure_keyword (lower metric)) eqn:Hpre.
    + apply contains_spec in Hpre.
      split; [reflexivity |]. intros _ Hno. destruct (Hno Hpre).
    + apply contains_false in Hpre.
      split; [intros _ H; destruct (Hpre H) |].
      intros _ _. split; [reflexivity |].
      exists "Métrica de salud '", "' no monitoreada actualmente.".
      reflexivity.
Qed.

Lemma check_health_status_spec_witness :
  check_health_status lower_latin1 "Glucosa en sangre"
  = "Métrica de salud 'Glucosa en sangre' no monitoreada actualmente."
  ∧ occurs_in "Glucosa en sangre"
      (check_health_status lower_latin1 "Glucosa en sangre").
Proof.
  apply (check_health_status_spec lower_latin1 "Glucosa en sangre").
  - apply contains_false. vm_compute. reflexivity.
  - apply contains_false. vm_compute. reflexivity.
Defined.

(** Case plays no part beyond [lower]: two metrics with the same
    lower-casing get the same canned answer, or each its own
    not-monitored answer. *)
Lemma check_health_status_case_blind (lower : string → string)
    (m1 m2 : string) :
  lower m1 = lower m2 →
  check_health_status lower m1 = check_health_status lower m2
  ∨ (check_health_status lower m1 = not_monitored m1
     ∧ check_health_status lower m2 = not_monitored m2).
Proof.
  intros H. unfold check_health_status. rewrite H.
  destruct (contains movement_keyword (lower m2)); [left; reflexivity |].
  destruct (contains pressure_keyword (lower m2)); [left; reflexivity |].
  right. split; reflexivity.
Qed.

(** The not-monitored answer echoes the metric. *)
Lemma not_monitored_echoes (metric : string) :
  occurs_in metric (not_monitored metric).
Proof. eexists _, _. reflexivity. Qed.

(** C10. A metric that holds both keywords once lower-cased gets the
    movement status: the movement test comes first. *)
Theorem movement_takes_precedence (lower : string → string) (metric : string) :
  occurs_in movement_keyword (lower metric) →
  occurs_in pressure_keyword (lower metric) →
  check_health_status lower metric = movement_status.
Proof.
  intros Hmov _. unfold check_health_status.
  apply contains_spec in Hmov. rewrite Hmov. reflexivity.
Qed.

Lemma movement_takes_precedence_witness :
  check_health_status lower_latin1 "PRESIÓN y Movimiento" = movement_status.
Proof.
  apply (movement_takes_precedence lower_latin1 "PRESIÓN y Movimiento").
  - exists "presión y ", "". reflexivity.
  - exists "", " y movimiento". reflexivity.
Defined.

Example check_health_status_upper_case :
  check_health_status lower_latin1 "PRESIÓN Arterial" = pressure_status.
Proof. vm_compute. reflexivity. Qed.

Example check_health_status_other :
  check_health_status lower_latin1 "Glucosa"
  = "Métrica de salud 'Glucosa' no monitoreada actualmente.".
Proof. vm_compute. reflexivity. Qed.

(** ** Orchestrator *)

Ltac unfold_monad :=
  unfold get_gemini_response, try_except, generate, lift, mbind, M_bind,
    mret, M_ret.

Lemma call_with_metric (lower : string → string) (metric : string) :
  call_check_health_status lower {[ "metric" := PyStr metric ]}
  = Return (check_health_status lower metric).
Proof.
  unfold call_check_health_status.
  rewrite lookup_singleton_eq, delete_singleton_eq.
  rewrite bool_decide_eq_true_2 by reflexivity. reflexivity.
Qed.

(** The function turn never depends on the tool: name and result are
    lost when the bare [FunctionResponse] is validated into a part. *)
Lemma function_turn_is_empty (function_name : option string)
    (function_result : string) :
  function_turn function_name function_result
  = {| role := Some "function"; parts := Some [TextPart None] |}.
Proof. reflexivity. Qed.

(** C1 on the code: the model asks for [check_health_status] on a metric
    holding [movimiento] (and for a second tool, which is ignored). The
    tool's answer is the movement status, two requests are sent and the
    second reply's text is returned, but the function turn of the second
    request holds a part without payload: neither the tool's name nor
    [{result: <the movement status>}] is sent. *)
Lemma tool_result_is_not_sent :
  call_check_health_status lower_latin1 {[ "metric" := PyStr "Último MOVIMIENTO" ]}
  = Return "El último movimiento registrado fue hace 2 horas en la sala. Es hora de un recordatorio para caminar un poco."
  ∧ run_get_gemini_response "¿Me he movido hoy?" []
      (boot [Return (tool_reply [movement_call; weather_call]);
             Return (text_reply (Some "Conviene caminar un poco."))])
    = (Return (Some "Conviene caminar un poco."),
       {| client := [];
          calls :=
            [{| model := "gemini-2.5-flash";
                contents :=
                  [Some {| role := Some "user";
                           parts := Some [TextPart (Some "¿Me he movido hoy?")] |}];
                config := {| tools := ["check_health_status"];
                             system_instruction := system_instruction_text |} |};
             {| model := "gemini-2.5-flash";
                contents :=
                  [Some {| role := Some "user";
                           parts := Some [TextPart (Some "¿Me he movido hoy?")] |};
                   Some {| role := Some "model";
                           parts := Some [FunctionCallPart movement_call;
                                          FunctionCallPart weather_call] |};
                   Some {| role := Some "function";
                           parts := Some [TextPart None] |}];
                config := {| tools := ["check_health_status"];
                             system_instruction := system_instruction_text |} |}];
          session := ∅ |}).
Proof. split; vm_compute; reflexivity. Qed.

(** C7, as stated, fails: a call of an unregistered tool that carries no
    argument mapping ends in the apology after the first request; no
    second request is sent. *)
Lemma unknown_tool_without_args_stops :
  fc_name {| fc_name := Some "get_weather"; fc_args := None |}
    ≠ Some "check_health_status"
  ∧ run_get_gemini_response "¿Lloverá hoy?" []
      (boot [Return (tool_reply [{| fc_name := Some "get_weather";
                                    fc_args := None |}]);
             Return (text_reply (Some "No puedo consultar el clima."))])
    = (Return (Some "Lo siento, ocurrió un error en el sistema: 'NoneType' object is not iterable. Intenta de nuevo."),
       {| client := [Return (text_reply (Some "No puedo consultar el clima."))];
          calls :=
            [{| model := "gemini-2.5-flash";
                contents :=
                  [Some {| role := Some "user";
                           parts := Some [TextPart (Some "¿Lloverá hoy?")] |}];
                config := {| tools := ["check_health_status"];
                             system_instruction := system_instruction_text |} |}];
          session := ∅ |}).
Proof. split; [discriminate | vm_compute; reflexivity]. Qed.

(** C7, amended. When the first tool call of the first reply names no
    registered tool and carries an argument mapping, whatever it holds,
    nothing is raised and the registered tool is not run: provided the
    reply has a first candidate and the second call returns, the
    orchestrator sends the transcript extended by the model's tool-call
    turn and the function turn in a second call, and returns its text. *)
Theorem unknown_tool_falls_back (lower : string → string)
    (interp_text : interp_error → string) (World : Type)
    (generate_content :
       Request → World → outcome GenerateContentResponse * World)
    (user_input : string) (chat_history : list Content) (st : State World)
    (r1 r2 : GenerateContentResponse) (w1 w2 : World)
    (function_call : FunctionCall) (others : list FunctionCall)
    (function_args : gmap string pyval) (c : Candidate) (cs : list Candidate) :
  generate_content
    {| model := "gemini-2.5-flash";
       contents :=
         (Some <$> chat_history) ++
         [Some {| role := Some "user";
                  parts := Some [TextPart (Some user_input)] |}];
       config := {| tools := ["check_health_status"];
                    system_instruction := system_instruction_text |} |}
    (client st) = (Return r1, w1) →
  function_calls r1 = Some (function_call :: others) →
  fc_name function_call ≠ Some "check_health_status" →
  fc_args function_call = Some function_args →
  candidates r1 = Some (c :: cs) →
  generate_content
    {| model := "gemini-2.5-flash";
       contents :=
         (Some <$> chat_history) ++
         [Some {| role := Some "user";
                  parts := Some [TextPart (Some user_input)] |};
          content c;
          Some {| role := Some "function"; parts := Some [TextPart None] |}];
       config := {| tools := ["check_health_status"];
                    system_instruction := system_instruction_text |} |}
    w1 = (Return r2, w2) →
  get_gemini_response lower interp_text generate_content
    user_input chat_history st
  = (Return (text r2),
     {| client := w2;
        calls := calls st ++
          [{| model := "gemini-2.5-flash";
              contents :=
                (Some <$> chat_history) ++
                [Some {| role := Some "user";
                         parts := Some [TextPart (Some user_input)] |}];
              config := {| tools := ["check_health_status"];
                           system_instruction := system_instruction_text |} |};
           {| model := "gemini-2.5-flash";
              contents :=
                (Some <$> chat_history) ++
                [Some {| role := Some "user";
                         parts := Some [TextPart (Some user_input)] |};
                 content c;
                 Some {| role := Some "function";
                         parts := Some [TextPart None] |}];
              config := {| tools := ["check_health_status"];
                           system_instruction := system_instruction_text |} |}];
        session := session st |}).
Proof.
  intros H1 Hcalls Hname Hargs Hcand H2.
  unfold_monad.
  unfold request_for, first_transcript, user_turn, tools_list,
    function_turn, bare_in_parts.
  rewrite H1, Hcalls, Hargs, Hcand.
  cbn [py_dict first_candidate_content].
  rewrite bool_decide_eq_false_2 by exact Hname.
  cbn [client calls session].
  rewrite <- (app_assoc (Some <$> chat_history)). cbn [app].
  rewrite H2. rewrite <- app_assoc. reflexivity.
Qed.

Lemma unknown_tool_falls_back_witness :
  (run_get_gemini_response "¿Lloverá hoy?" []
     (boot [Return (tool_reply [weather_call]);
            Return (text_reply (Some "No puedo consultar el clima."))])).1
  = Return (Some "No puedo consultar el clima.").
Proof.
  unfold run_get_gemini_response.
  rewrite (unknown_tool_falls_back lower_latin1 cpython_text _ scripted
             "¿Lloverá hoy?" []
             (boot [Return (tool_reply [weather_call]);
                    Return (text_reply (Some "No puedo consultar el clima."))])
             (tool_reply [weather_call])
             (text_reply (Some "No puedo consultar el clima."))
             [Return (text_reply (Some "No puedo consultar el clima."))] []
             weather_call [] {[ "city" := PyStr "Lima" ]}
             {| content := Some {| role := Some "model";
                                   parts := Some (FunctionCallPart <$>
                                     [weather_call]) |} |} []);
    first [reflexivity | discriminate].
Defined.

(** ** Failures and the route handler *)

Section Routes.

Variable lower : string → string.
Variable interp_text : interp_error → string.
Variable World : Type.
Variable generate_content :
  Request → World → outcome GenerateContentResponse * World.

(** Every exception of the scenarios of [raised_in_flight] ends in the
    handler of [get_gemini_response]. *)
Lemma raised_is_caught (user_input : string) (chat_history : list Content)
    (st st' : State World) (e : exn) :
  raised_in_flight lower World generate_content
    user_input chat_history st e st' →
  get_gemini_response lower interp_text generate_content
    user_input chat_history st
  = (Return (Some (apology interp_text e)), st').
Proof.
  intros Hraised. unfold_monad.
  destruct Hraised as [e w H1
                      | e w r fc others kwargs H1 Hcalls Hname Hargs Htool
                      | e w w' r fc others kwargs res turn
                          H1 Hcalls Hargs Htool Hcand H2].
  - rewrite H1. reflexivity.
  - rewrite H1, Hcalls, Hargs, Hname. cbn [py_dict].
    rewrite bool_decide_eq_true_2 by reflexivity.
    rewrite Htool. reflexivity.
  - rewrite H1, Hcalls, Hargs, Hcand. cbn [py_dict].
    unfold dispatch in Htool.
    destruct (bool_decide (fc_name fc = Some "check_health_status"));
      [rewrite Htool | injection Htool as <-];
      cbn [client calls session];
      unfold second_transcript in H2; rewrite H2;
      rewrite <- app_assoc; reflexivity.
Qed.

(** The orchestrator itself never raises and leaves the session alone. *)
Lemma get_gemini_response_returns (user_input : string)
    (chat_history : list Content) (st : State World) :
  ∃ reply st',
    get_gemini_response lower interp_text generate_content
      user_input chat_history st = (Return reply, st')
    ∧ session st' = session st.
Proof.
  unfold_monad. unfold py_dict, first_candidate_content.
  repeat case_match; simplify_eq/=; eauto.
Qed.

(** *** What the session holds *)

Lemma serialize_content_well_keyed (c : option Content) :
  well_keyed (serialize_content c).
Proof.
  unfold serialize_content.
  destruct c as [[ro [[|p rest]|]]|]; simpl; try exact I.
  destruct (truthy (part_text p)); simpl; [| exact I].
  rewrite record_lookup_role, record_lookup_text. split; eauto.
Qed.

Lemma well_keyed_decodes (item : option flat_record) :
  well_keyed item → deserialize_content item = Return (decode_item item).
Proof.
  unfold decode_item. destruct item as [d|]; [| reflexivity].
  intros [[r Hr] [t Ht]].
  rewrite (decode_keyed d r t Hr Ht).
  destruct (truthy r && truthy t); reflexivity.
Qed.

Lemma comprehension_decodes (stored : stored_history) :
  Forall well_keyed stored →
  comprehension deserialize_content stored = Return (decode_item <$> stored).
Proof.
  induction 1 as [|item stored Hitem _ IH]; [reflexivity |].
  simpl. rewrite (well_keyed_decodes item Hitem), IH. reflexivity.
Qed.

Lemma stored_of_store_turns (user_input : string) (reply : option string)
    (before after : State World) :
  stored_of (store_turns user_input reply before after)
  = stored_of before ++
    [serialize_content (Some (user_turn user_input));
     serialize_content (Some (model_turn reply))].
Proof. unfold stored_of at 1, store_turns. simpl. by rewrite lookup_insert_eq. Qed.

(** [ask] on a request with a message, once the stored history decodes. *)
Lemma ask_served (form : gmap string string) (user_input : string)
    (reply : option string) (st st' : State World) :
  form !! "user_input" = Some user_input → user_input ≠ "" →
  Forall well_keyed (stored_of st) →
  get_gemini_response lower interp_text generate_content
    user_input (history_of st) st = (Return reply, st') →
  ask lower interp_text generate_content form st
  = (Return ({[ "response" := reply; "user_input" := Some user_input ]},
             200%Z),
     store_turns user_input reply st st').
Proof.
  intros Hform Hne Hkeys Hreply. unfold ask.
  rewrite Hform, (truthy_nonempty user_input Hne).
  cbn [negb default from_option id].
  unfold session_get, session_set, lift, mbind, M_bind, mret, M_ret.
  fold (stored_of st). rewrite (comprehension_decodes _ Hkeys).
  fold (history_of st). rewrite Hreply.
  unfold store_turns. rewrite <- app_assoc. reflexivity.
Qed.

(** A request without a message changes nothing. *)
Lemma ask_rejected (form : gmap string string) (st : State World) :
  truthy (form !! "user_input") = false →
  ask lower interp_text generate_content form st
  = (Return ({[ "error" := Some "No se recibió mensaje" ]}, 400%Z), st).
Proof. intros H. unfold ask. rewrite H. reflexivity. Qed.

(** Every item of a reachable session decodes without raising. *)
Lemma reachable_well_keyed (st : State World) :
  reachable lower interp_text generate_content st →
  Forall well_keyed (stored_of st).
Proof.
  induction 1 as [w | st _ IH | form st _ IH].
  - unfold stored_of. simpl. rewrite lookup_empty. constructor.
  - unfold index. destruct (session st !! "chat_history") eqn:Hh; [exact IH |].
    unfold stored_of. simpl. rewrite lookup_insert_eq. constructor.
  - destruct (truthy (form !! "user_input")) eqn:Hinput.
    + apply truthy_inv in Hinput as (user_input & Hform & Hne).
      destruct (get_gemini_response_returns user_input (history_of st) st)
        as (reply & st' & Hreply & _).
      rewrite (ask_served form user_input reply st st' Hform Hne IH Hreply).
      simpl. rewrite stored_of_store_turns.
      apply Forall_app. split; [exact IH |].
      repeat constructor; apply serialize_content_well_keyed.
    + rewrite (ask_rejected form st Hinput). exact IH.
Qed.

(** The handler of [/ask] never raises in a reachable session: it answers
    400 or 200. *)
Lemma ask_always_answers (form : gmap string string) (st : State World) :
  reachable lower interp_text generate_content st →
  ∃ body status st',
    ask lower interp_text generate_content form st
    = (Return (body, status), st')
    ∧ (status = 400%Z ∨ status = 200%Z).
Proof.
  intros Hreach. destruct (truthy (form !! "user_input")) eqn:Hinput.
  - apply truthy_inv in Hinput as (user_input & Hform & Hne).
    destruct (get_gemini_response_returns user_input (history_of st) st)
      as (reply & st' & Hreply & _).
    rewrite (ask_served form user_input reply st st' Hform Hne
               (reachable_well_keyed st Hreach) Hreply).
    eauto 6.
  - rewrite (ask_rejected form st Hinput). eauto 6.
Qed.

End Routes.

(** C2. In a session the routes have produced, for a request carrying a
    message: whichever exception is raised by the first external call, by
    the tool function or by the second external call, the orchestrator
    catches it and returns the apology built around the error's text, and
    [/ask] answers 200 with that apology in the [response] field and
    stores it as the model turn; the handler itself raises nothing. *)
Theorem failure_becomes_apology (lower : string → string)
    (interp_text : interp_error → string) (World : Type)
    (generate_content :
       Request → World → outcome GenerateContentResponse * World)
    (form : gmap string string) (user_input : string)
    (st st' : State World) (e : exn) :
  reachable lower interp_text generate_content st →
  form !! "user_input" = Some user_input → user_input ≠ "" →
  raised_in_flight lower World generate_content
    user_input (history_of st) st e st' →
  get_gemini_response lower interp_text generate_content
    user_input (history_of st) st
  = (Return (Some ("Lo siento, ocurrió un error en el sistema: " +:+
                   str_exn interp_text e +:+ ". Intenta de nuevo.")), st')
  ∧ ask lower interp_text generate_content form st
    = (Return ({[ "response" := Some (apology interp_text e);
                  "user_input" := Some user_input ]}, 200%Z),
       store_turns user_input (Some (apology interp_text e)) st st').
Proof.
  intros Hreach Hform Hne Hraised.
  pose proof (raised_is_caught lower interp_text World generate_content
                user_input (history_of st) st st' e Hraised) as Hcaught.
  split; [exact Hcaught |].
  apply (ask_served lower interp_text World generate_content
           form user_input _ st st' Hform Hne); [| exact Hcaught].
  apply (reachable_well_keyed lower interp_text World generate_content).
  exact Hreach.
Qed.

Lemma failure_becomes_apology_witness :
  (run_ask (form_of "hola") (boot [Raise (ClientError "timeout")])).1
  = Return ({[ "response" :=
                 Some "Lo siento, ocurrió un error en el sistema: timeout. Intenta de nuevo.";
               "user_input" := Some "hola" ]}, 200%Z).
Proof.
  unfold run_ask.
  destruct (failure_becomes_apology lower_latin1 cpython_text _ scripted
              (form_of "hola") "hola"
              (boot [Raise (ClientError "timeout")])
              {| client := [];
                 calls := [request_for (first_transcript [] "hola")];
                 session := ∅ |}
              (ClientError "timeout")) as [_ Hask].
  - apply reachable_boot.
  - vm_compute. reflexivity.
  - discriminate.
  - exact (raised_by_first_call lower_latin1 _ scripted "hola" []
             (boot [Raise (ClientError "timeout")])
             (ClientError "timeout") [] eq_refl).
  - rewrite Hask. reflexivity.
Defined.

(** The same for a tool function that raises: the model asks for the
    tool without the [metric] argument. *)
Example tool_failure_becomes_apology :
  (run_ask (form_of "hola")
     (boot [Return (tool_reply [{| fc_name := Some "check_health_status";
                                   fc_args := Some ∅ |}])])).1
  = Return ({[ "response" :=
                 Some "Lo siento, ocurrió un error en el sistema: check_health_status() missing 1 required positional argument: 'metric'. Intenta de nuevo.";
               "user_input" := Some "hola" ]}, 200%Z).
Proof. vm_compute. reflexivity. Qed.

(** C8, as stated, fails on the body: the error field holds the Spanish
    message, not the English one. *)
Lemma ask_error_body_is_not_english :
  ∃ body,
    run_ask ∅ (boot []) = (Return (body, 400%Z), boot [])
    ∧ body !! "error" = Some (Some "No se recibió mensaje")
    ∧ body ≠ {[ "error" := Some "no message received" ]}.
Proof.
  exists {[ "error" := Some "No se recibió mensaje" ]}.
  split; [reflexivity |]. split; [reflexivity |].
  intros H. apply (f_equal (λ m : json, m !! "error")) in H.
  rewrite !lookup_singleton_eq in H. discriminate.
Qed.

(** C8, amended. A request to [/ask] whose [user_input] field is missing
    or empty is answered 400 with the body
    [{"error": "No se recibió mensaje"}]; the state is left as it was: no
    external call is made and the stored history is unchanged. *)
Theorem ask_rejects_empty_input (lower : string → string)
    (interp_text : interp_error → string) (World : Type)
    (generate_content :
       Request → World → outcome GenerateContentResponse * World)
    (form : gmap string string) (st : State World) :
  form !! "user_input" = None ∨ form !! "user_input" = Some "" →
  ask lower interp_text generate_content form st
  = (Return ({[ "error" := Some "No se recibió mensaje" ]}, 400%Z), st).
Proof.
  intros [H | H]; apply ask_rejected; rewrite H; reflexivity.
Qed.

Lemma ask_rejects_empty_input_witness :
  run_ask (form_of "") (boot [Return (text_reply (Some "hola"))])
  = (Return ({[ "error" := Some "No se recibió mensaje" ]}, 400%Z),
     boot [Return (text_reply (Some "hola"))]).
Proof.
  apply (ask_rejects_empty_input lower_latin1 cpython_text _ scripted
           (form_of "")).
  right. vm_compute. reflexivity.
Defined.

(** C9 on the code: when the model's reply has no text, [ask] appends the
    user record and then [None], the encoding of the empty model turn,
    to the stored history. *)
Lemma ask_stores_none_for_silent_reply :
  stored_of (run_ask (form_of "hola")
               (boot [Return (text_reply None)])).2
  = [Some {[ "role" := Some "user"; "text" := Some "hola" ]}; None].
Proof. vm_compute. reflexivity. Qed.

(** What does hold for every served request: two items are appended to
    the stored history, the user record and the encoding of the model
    turn, and the items before them stay in place. *)
Lemma ask_appends_two_items (lower : string → string)
    (interp_text : interp_error → string) (World : Type)
    (generate_content :
       Request → World → outcome GenerateContentResponse * World)
    (form : gmap string string) (user_input : string) (st : State World) :
  reachable lower interp_text generate_content st →
  form !! "user_input" = Some user_input → user_input ≠ "" →
  ∃ reply,
    (ask lower interp_text generate_content form st).1
    = Return ({[ "response" := reply; "user_input" := Some user_input ]},
              200%Z)
    ∧ stored_of (ask lower interp_text generate_content form st).2
      = stored_of st ++
        [Some {[ "role" := Some "user"; "text" := Some user_input ]};
         if truthy reply
         then Some {[ "role" := Some "model"; "text" := reply ]}
         else None].
Proof.
  intros Hreach Hform Hne.
  destruct (get_gemini_response_returns lower interp_text World
              generate_content user_input (history_of st) st)
    as (reply & st' & Hreply & _).
  exists reply.
  rewrite (ask_served lower interp_text World generate_content
             form user_input reply st st' Hform Hne
             (reachable_well_keyed lower interp_text World generate_content
                st Hreach) Hreply).
  split; [reflexivity |]. cbn [snd].
  rewrite stored_of_store_turns.
  unfold serialize_content, user_turn, model_turn. cbn [parts role part_text].
  rewrite (truthy_nonempty user_input Hne). reflexivity.
Qed.

(** * Further properties of the code *)

(** ** The orchestrator's other paths *)

(** X1. When the first reply asks for no tool (its list of function calls
    is absent or empty), the orchestrator returns that reply's text after
    this one external call. *)
Theorem plain_reply_is_returned (lower : string → string)
    (interp_text : interp_error → string) (World : Type)
    (generate_content :
       Request → World → outcome GenerateContentResponse * World)
    (user_input : string) (chat_history : list Content) (st : State World)
    (r : GenerateContentResponse) (w : World) :
  generate_content (request_for (first_transcript chat_history user_input))
    (client st) = (Return r, w) →
  function_calls r = None ∨ function_calls r = Some [] →
  get_gemini_response lower interp_text generate_content
    user_input chat_history st
  = (Return (text r),
     {| client := w;
        calls := calls st ++
          [request_for (first_transcript chat_history user_input)];
        session := session st |}).
Proof.
  intros H1 [Hcalls | Hcalls]; unfold_monad; rewrite H1, Hcalls; reflexivity.
Qed.

Lemma plain_reply_is_returned_witness :
  (run_get_gemini_response "hola" []
     (boot [Return (text_reply (Some "Buenos días."))])).1
  = Return (Some "Buenos días.").
Proof.
  unfold run_get_gemini_response.
  rewrite (plain_reply_is_returned lower_latin1 cpython_text _ scripted
             "hola" [] (boot [Return (text_reply (Some "Buenos días."))])
             (text_reply (Some "Buenos días.")) []);
    [reflexivity | reflexivity | left; reflexivity].
Defined.

Lemma get_gemini_response_run (lower : string → string)
    (interp_text : interp_error → string) (World : Type)
    (generate_content :
       Request → World → outcome GenerateContentResponse * World)
    (user_input : string) (chat_history : list Content) (st : State World) :
  ∃ reply st' more,
    get_gemini_response lower interp_text generate_content
      user_input chat_history st = (Return reply, st')
    ∧ session st' = session st
    ∧ calls st' = calls st ++
        {| model := "gemini-2.5-flash";
           contents :=
             (Some <$> chat_history) ++
             [Some {| role := Some "user";
                      parts := Some [TextPart (Some user_input)] |}];
           config := {| tools := ["check_health_status"];
                        system_instruction := system_instruction_text |} |}
        :: more
    ∧ (more = []
       ∨ ∃ tool_call_turn,
           more =
             [{| model := "gemini-2.5-flash";
                 contents :=
                   (Some <$> chat_history) ++
                   [Some {| role := Some "user";
                            parts := Some [TextPart (Some user_input)] |};
                    tool_call_turn;
                    Some {| role := Some "function";
                            parts := Some [TextPart None] |}];
                 config := {| tools := ["check_health_status"];
                              system_instruction := system_instruction_text |}
               |}]).
Proof.
  unfold_monad.
  unfold py_dict, first_candidate_content, request_for, first_transcript,
    user_turn, function_turn, bare_in_parts, tools_list.
  repeat case_match; simplify_eq/=;
    do 3 eexists;
    (split; [reflexivity |]); (split; [reflexivity |]);
    (split; [rewrite <- ?app_assoc; reflexivity |]);
    first [left; reflexivity | right; eexists; reflexivity].
Qed.

(** X2. Whatever the external service does, [get_gemini_response] returns
    (it never raises), leaves the session as it was, and sends the
    history followed by the user turn, with the fixed model, tool list
    and system instruction, then at most one more request: the same
    extended by a tool-call turn and by the function turn, whose one
    part has no payload. *)
Theorem get_gemini_response_sends_one_or_two (lower : string → string)
    (interp_text : interp_error → string) (World : Type)
    (generate_content :
       Request → World → outcome GenerateContentResponse * World)
    (user_input : string) (chat_history : list Content) (st : State World) :
  ∃ reply st' more,
    get_gemini_response lower interp_text generate_content
      user_input chat_history st = (Return reply, st')
    ∧ session st' = session st
    ∧ calls st' = calls st ++
        {| model := "gemini-2.5-flash";
           contents :=
             (Some <$> chat_history) ++
             [Some {| role := Some "user";
                      parts := Some [TextPart (Some user_input)] |}];
           config := {| tools := ["check_health_status"];
                        system_instruction := system_instruction_text |} |}
        :: more
    ∧ (more = []
       ∨ ∃ tool_call_turn,
           more =
             [{| model := "gemini-2.5-flash";
                 contents :=
                   (Some <$> chat_history) ++
                   [Some {| role := Some "user";
                            parts := Some [TextPart (Some user_input)] |};
                    tool_call_turn;
                    Some {| role := Some "function";
                            parts := Some [TextPart None] |}];
                 config := {| tools := ["check_health_status"];
                              system_instruction := system_instruction_text |}
               |}]).
Proof. apply get_gemini_response_run. Qed.

(** X3. A tool call that carries no argument mapping ends in the apology
    for the interpreter's error on [dict(None)], whatever tool it names,
    and no second request is sent. *)
Theorem tool_call_without_args_is_apologised (lower : string → string)
    (interp_text : interp_error → string) (World : Type)
    (generate_content :
       Request → World → outcome GenerateContentResponse * World)
    (user_input : string) (chat_history : list Content) (st : State World)
    (r : GenerateContentResponse) (w : World)
    (function_call : FunctionCall) (others : list FunctionCall) :
  generate_content (request_for (first_transcript chat_history user_input))
    (client st) = (Return r, w) →
  function_calls r = Some (function_call :: others) →
  fc_args function_call = None →
  get_gemini_response lower interp_text generate_content
    user_input chat_history st
  = (Return (Some (apology interp_text (Interp NoneNotIterable))),
     {| client := w;
        calls := calls st ++
          [request_for (first_transcript chat_history user_input)];
        session := session st |}).
Proof.
  intros H1 Hcalls Hargs. unfold_monad.
  rewrite H1, Hcalls, Hargs. reflexivity.
Qed.

Lemma tool_call_without_args_is_apologised_witness :
  (run_get_gemini_response "hola" []
     (boot [Return (tool_reply [{| fc_name := Some "get_weather";
                                   fc_args := None |}]);
            Return (text_reply (Some "nunca pedido"))])).1
  = Return (Some "Lo siento, ocurrió un error en el sistema: 'NoneType' object is not iterable. Intenta de nuevo.").
Proof.
  unfold run_get_gemini_response.
  rewrite (tool_call_without_args_is_apologised lower_latin1 cpython_text _
             scripted "hola" []
             (boot [Return (tool_reply [{| fc_name := Some "get_weather";
                                           fc_args := None |}]);
                    Return (text_reply (Some "nunca pedido"))])
             (tool_reply [{| fc_name := Some "get_weather";
                             fc_args := None |}])
             [Return (text_reply (Some "nunca pedido"))]
             {| fc_name := Some "get_weather"; fc_args := None |} []);
    reflexivity.
Defined.

(** X4. When the reply that asks for a tool has no candidate to take the
    tool-call turn from, the tool has run but its result is dropped: the
    orchestrator returns the apology for the indexing error and sends no
    second request. *)
Theorem missing_candidate_is_apologised (lower : string → string)
    (interp_text : interp_error → string) (World : Type)
    (generate_content :
       Request → World → outcome GenerateContentResponse * World)
    (user_input : string) (chat_history : list Content) (st : State World)
    (r : GenerateContentResponse) (w : World)
    (function_call : FunctionCall) (others : list FunctionCall)
    (function_args : gmap string pyval) (function_result : string) :
  generate_content (request_for (first_transcript chat_history user_input))
    (client st) = (Return r, w) →
  function_calls r = Some (function_call :: others) →
  fc_args function_call = Some function_args →
  dispatch lower (fc_name function_call) function_args
    = Return function_result →
  candidates r = None ∨ candidates r = Some [] →
  get_gemini_response lower interp_text generate_content
    user_input chat_history st
  = (Return (Some (apology interp_text
                     (Interp (match candidates r with
                              | None => NoneNotSubscriptable
                              | Some _ => IndexOutOfRange
                              end)))),
     {| client := w;
        calls := calls st ++
          [request_for (first_transcript chat_history user_input)];
        session := session st |}).
Proof.
  intros H1 Hcalls Hargs Htool Hcand. unfold_monad.
  rewrite H1, Hcalls, Hargs. cbn [py_dict].
  unfold dispatch in Htool.
  destruct (bool_decide (fc_name function_call = Some "check_health_status"));
    [rewrite Htool |];
    destruct Hcand as [-> | ->]; reflexivity.
Qed.

Lemma missing_candidate_is_apologised_witness :
  (run_get_gemini_response "hola" []
     (boot [Return {| text := None;
                      function_calls := Some [movement_call];
                      candidates := Some [] |};
            Return (text_reply (Some "nunca pedido"))])).1
  = Return (Some "Lo siento, ocurrió un error en el sistema: list index out of range. Intenta de nuevo.").
Proof.
  unfold run_get_gemini_response.
  rewrite (missing_candidate_is_apologised lower_latin1 cpython_text _
             scripted "hola" []
             (boot [Return {| text := None;
                              function_calls := Some [movement_call];
                              candidates := Some [] |};
                    Return (text_reply (Some "nunca pedido"))])
             {| text := None; function_calls := Some [movement_call];
                candidates := Some [] |}
             [Return (text_reply (Some "nunca pedido"))]
             movement_call [] {[ "metric" := PyStr "Último MOVIMIENTO" ]}
             movement_status);
    first [reflexivity | right; reflexivity | vm_compute; reflexivity].
Defined.

(** ** The codec beyond single-part turns *)

Lemma decode_encoded (c : Content) :
  deserialize_content (serialize_content (Some c))
  = Return (if truthy (first_text c) && truthy (role c)
            then Some {| role := role c;
                         parts := Some [TextPart (first_text c)] |}
            else None).
Proof.
  unfold serialize_content, first_text.
  destruct (parts c) as [[|p rest]|]; try reflexivity.
  destruct (truthy (part_text p)) eqn:Htext; [| reflexivity].
  rewrite (decode_keyed _ (role c) (part_text p)
             (record_lookup_role _ _) (record_lookup_text _ _)).
  rewrite Htext. destruct (truthy (role c)); reflexivity.
Qed.

(** X5. Encoding any turn and decoding the result never raises: the turn
    comes back cut down to its role and its first part's text when both
    are truthy, and as [None] otherwise. *)
Theorem decode_after_encode (c : Content) :
  deserialize_content (serialize_content (Some c))
  = Return (if truthy (first_text c) && truthy (role c)
            then Some {| role := role c;
                         parts := Some [TextPart (first_text c)] |}
            else None).
Proof. apply decode_encoded. Qed.

(** X6. Decoding a record whose role and text are truthy and encoding the
    turn again gives the record of just these two fields: any other field
    of the stored record is dropped. *)
Theorem encode_after_decode (d : flat_record) (r t : option string) :
  d !! "role" = Some r → d !! "text" = Some t →
  truthy r = true → truthy t = true →
  ∃ c, deserialize_content (Some d) = Return (Some c)
       ∧ serialize_content (Some c) = Some {[ "role" := r; "text" := t ]}.
Proof.
  intros Hr Ht Hrole Htext.
  rewrite (decode_keyed d r t Hr Ht), Hrole, Htext.
  eexists. split; [reflexivity |].
  unfold serialize_content. cbn [parts role part_text].
  rewrite Htext. reflexivity.
Qed.

Lemma encode_after_decode_witness :
  ∃ c, deserialize_content
         (Some {[ "role" := Some "model"; "text" := Some "hola";
                  "extra" := None ]}) = Return (Some c)
       ∧ serialize_content (Some c)
         = Some {[ "role" := Some "model"; "text" := Some "hola" ]}.
Proof.
  apply (encode_after_decode
           {[ "role" := Some "model"; "text" := Some "hola"; "extra" := None ]}
           (Some "model") (Some "hola")); vm_compute; reflexivity.
Defined.

(** X7. [deserialize_content] raises exactly on a non-empty record that
    lacks the role field ([KeyError] on [role]) or that has a truthy role
    and lacks the text field ([KeyError] on [text]); a record with a falsy
    role is skipped without its text field being read. *)
Theorem deserialize_content_raises_iff (d : flat_record) (e : exn) :
  deserialize_content (Some d) = Raise e ↔
    (d ≠ ∅ ∧ d !! "role" = None ∧ e = Interp (KeyError "role"))
    ∨ (∃ r, d !! "role" = Some r ∧ truthy r = true
            ∧ d !! "text" = None ∧ e = Interp (KeyError "text")).
Proof.
  unfold deserialize_content. split.
  - case_bool_decide as Hd; [discriminate |].
    destruct (d !! "role") as [r|] eqn:Hr.
    + destruct (truthy r) eqn:Hrole; [| discriminate].
      destruct (d !! "text") as [t|] eqn:Ht.
      * destruct (truthy t); discriminate.
      * intros [= <-]. right. exists r. auto.
    + intros [= <-]. left. auto.
  - intros [(Hd & Hr & ->) | (r & Hr & Hrole & Ht & ->)].
    + rewrite bool_decide_eq_false_2 by exact Hd. rewrite Hr. reflexivity.
    + rewrite bool_decide_eq_false_2.
      * rewrite Hr, Hrole, Ht. reflexivity.
      * intros ->. rewrite lookup_empty in Hr. discriminate.
Qed.

Example deserialize_content_falsy_role_short_circuits :
  deserialize_content (Some {[ "role" := None ]}) = Return None.
Proof. vm_compute. reflexivity. Qed.

(** ** The tool *)

(** X8. The tool called with the model's argument mapping returns exactly
    when the mapping is [{metric: <a string>}], with the status of that
    metric; a missing [metric], any further keyword or a metric that is
    no string makes the call raise. *)
Theorem tool_call_binds_metric_only (lower : string → string)
    (kwargs : gmap string pyval) (answer : string) :
  call_check_health_status lower kwargs = Return answer ↔
    ∃ metric, kwargs = {[ "metric" := PyStr metric ]}
              ∧ answer = check_health_status lower metric.
Proof.
  split.
  - unfold call_check_health_status.
    destruct (kwargs !! "metric") as [v|] eqn:Hv.
    + case_bool_decide as Hrest; [| discriminate].
      destruct v as [| b | n | metric]; try discriminate.
      intros [= <-]. exists metric. split; [| reflexivity].
      rewrite <- (insert_id kwargs "metric" (PyStr metric) Hv).
      rewrite <- insert_delete_eq, Hrest. reflexivity.
    + case_bool_decide; discriminate.
  - intros (metric & -> & ->). apply call_with_metric.
Qed.

Example tool_call_extra_keyword_raises :
  call_check_health_status lower_latin1
    {[ "metric" := PyStr "presión"; "unit" := PyStr "mmHg" ]}
  = Raise (Interp (UnexpectedKeyword "unit")).
Proof. vm_compute. reflexivity. Qed.

Example tool_call_number_metric_raises :
  call_check_health_status lower_latin1 {[ "metric" := PyInt 7 ]}
  = Raise (Interp (NoAttribute (PyInt 7))).
Proof. vm_compute. reflexivity. Qed.

Lemma not_monitored_is_no_canned_answer (metric : string) :
  not_monitored metric ≠ movement_status
  ∧ not_monitored metric ≠ pressure_status.
Proof.
  unfold not_monitored, movement_status, pressure_status.
  split; intros H; rewrite append_cons in H; discriminate.
Qed.

(** X9. The answer of [check_health_status] tells which case applied: it
    is the movement status exactly when the lower-cased metric holds the
    movement keyword, the pressure status exactly when it holds the
    pressure keyword and not the movement keyword, and the not-monitored
    answer exactly when it holds neither. *)
Theorem answer_tells_the_case (lower : string → string) (metric : string) :
  (check_health_status lower metric = movement_status
     ↔ occurs_in movement_keyword (lower metric))
  ∧ (check_health_status lower metric = pressure_status
     ↔ ¬ occurs_in movement_keyword (lower metric)
       ∧ occurs_in pressure_keyword (lower metric))
  ∧ (check_health_status lower metric = not_monitored metric
     ↔ ¬ occurs_in movement_keyword (lower metric)
       ∧ ¬ occurs_in pressure_keyword (lower metric)).
Proof.
  destruct (not_monitored_is_no_canned_answer metric) as [Hnm Hnp].
  assert (movement_status ≠ pressure_status) as Hmp by discriminate.
  unfold check_health_status.
  rewrite <- !contains_false, <- !contains_spec.
  destruct (contains movement_keyword (lower metric));
    destruct (contains pressure_keyword (lower metric));
    repeat split; try congruence; try tauto;
    intros H; try (destruct H; congruence); try congruence.
Qed.

(** ** The routes over any session *)

Lemma state_eta {World : Type} (st : State World) :
  {| client := client st; calls := calls st; session := session st |} = st.
Proof. destruct st. reflexivity. Qed.

Lemma not_none_app {A : Type} (l1 l2 : list (option A)) :
  not_none (l1 ++ l2) = not_none l1 ++ not_none l2.
Proof.
  induction l1 as [|[x|] l1 IH]; simpl; [reflexivity | | exact IH].
  rewrite IH. reflexivity.
Qed.

Lemma comprehension_raises {A B : Type} (f : A → outcome B) (l : list A)
    (x : A) (e0 : exn) :
  x ∈ l → f x = Raise e0 → ∃ e, comprehension f l = Raise e.
Proof.
  intros Hin Hx. induction l as [|y l IH]; [inversion Hin |].
  simpl. apply elem_of_cons in Hin as [<- | Hin].
  - rewrite Hx. eauto.
  - destruct (f y); [| eauto].
    destruct (IH Hin) as [e ->]. eauto.
Qed.

Lemma serialize_user_turn (user_input : string) :
  user_input ≠ "" →
  serialize_content (Some (user_turn user_input))
  = Some (user_record user_input).
Proof.
  intros Hne. unfold serialize_content, user_turn.
  cbn [parts role part_text]. rewrite (truthy_nonempty _ Hne). reflexivity.
Qed.

Lemma serialize_model_turn (reply : option string) :
  serialize_content (Some (model_turn reply))
  = if truthy reply
    then Some {[ "role" := Some "model"; "text" := reply ]}
    else None.
Proof. reflexivity. Qed.

Lemma index_run {World : Type} (st : State World) :
  index st
  = (Return (stored_of st),
     set_session (<[ "chat_history" := stored_of st ]> (session st)) st).
Proof.
  unfold index, stored_of, set_session.
  destruct (session st !! "chat_history") as [h|] eqn:Hh; simpl.
  - rewrite (insert_id _ _ _ Hh), state_eta. reflexivity.
  - reflexivity.
Qed.

Lemma stored_of_index {World : Type} (st : State World) :
  stored_of (index st).2 = stored_of st.
Proof.
  rewrite index_run. unfold stored_of at 1. simpl.
  rewrite lookup_insert_eq. reflexivity.
Qed.

Section Outcomes.

Variable lower : string → string.
Variable interp_text : interp_error → string.
Variable World : Type.
Variable generate_content :
  Request → World → outcome GenerateContentResponse * World.

(** The orchestrator does not read the session: run from a state with
    another session, it gives the same reply and the same service state
    and log. *)
Lemma get_gemini_response_session_frame (user_input : string)
    (chat_history : list Content) (s : gmap string stored_history)
    (st : State World) :
  get_gemini_response lower interp_text generate_content
    user_input chat_history (set_session s st)
  = ((get_gemini_response lower interp_text generate_content
        user_input chat_history st).1,
     set_session s
       (get_gemini_response lower interp_text generate_content
          user_input chat_history st).2).
Proof.
  unfold_monad. unfold set_session. cbn [client calls session].
  destruct (generate_content _ (client st)) as [[r | e] w];
    cbn [fst snd client calls session]; [| reflexivity].
  destruct (function_calls r) as [[| function_call others] |];
    try reflexivity.
  destruct (py_dict (fc_args function_call)) as [function_args | e];
    [| reflexivity].
  destruct (bool_decide (fc_name function_call = Some "check_health_status"));
    [destruct (call_check_health_status lower function_args)
       as [function_result | e]; [| reflexivity] |];
    (destruct (first_candidate_content (candidates r))
       as [tool_call_turn | e]; [| reflexivity]);
    cbn [client calls session];
    destruct (generate_content _ w) as [[r2 | e] w2]; reflexivity.
Qed.

(** The three ways [ask] ends, in any state. *)
Lemma ask_outcomes (form : gmap string string) (st : State World) :
  (truthy (form !! "user_input") = false
   ∧ ask lower interp_text generate_content form st
     = (Return ({[ "error" := Some "No se recibió mensaje" ]}, 400%Z), st))
  ∨ (∃ e, truthy (form !! "user_input") = true
          ∧ comprehension deserialize_content (stored_of st) = Raise e
          ∧ ask lower interp_text generate_content form st = (Raise e, st))
  ∨ (∃ user_input history reply st',
       form !! "user_input" = Some user_input ∧ user_input ≠ ""
       ∧ comprehension deserialize_content (stored_of st) = Return history
       ∧ get_gemini_response lower interp_text generate_content
           user_input (not_none history) st = (Return reply, st')
       ∧ ask lower interp_text generate_content form st
         = (Return ({[ "response" := reply;
                       "user_input" := Some user_input ]}, 200%Z),
            store_turns user_input reply st st')).
Proof.
  destruct (truthy (form !! "user_input")) eqn:Hinput.
  - right. apply truthy_inv in Hinput as (user_input & Hform & Hne).
    unfold ask. rewrite Hform, (truthy_nonempty user_input Hne).
    cbn [negb default from_option id].
    unfold session_get, session_set, lift, mbind, M_bind, mret, M_ret.
    fold (stored_of st).
    destruct (comprehension deserialize_content (stored_of st))
      as [history | e] eqn:Hdec.
    + right.
      destruct (get_gemini_response_returns lower interp_text World
                  generate_content user_input (not_none history) st)
        as (reply & st' & Hreply & _).
      exists user_input, history, reply, st'. rewrite Hreply.
      unfold store_turns. rewrite <- app_assoc. auto.
    + left. exists e. auto.
  - left. split; [reflexivity |].
    apply (ask_rejected lower interp_text World generate_content),
      Hinput.
Qed.

Lemma stored_of_ask_grows (form : gmap string string) (st : State World) :
  ∃ added,
    stored_of (ask lower interp_text generate_content form st).2
    = stored_of st ++ added.
Proof.
  destruct (ask_outcomes form st)
    as [[_ ->] | [(e & _ & _ & ->) | (ui & hs & reply & st' & _ & _ & _ & _ & ->)]];
    cbn [snd].
  - exists []. by rewrite app_nil_r.
  - exists []. by rewrite app_nil_r.
  - rewrite stored_of_store_turns. eauto.
Qed.

End Outcomes.

(** X10. [GET /] returns the stored history (empty for a session without
    one), makes no external call, and leaves the session as it was but
    for [chat_history], which now holds that history; a second [GET /]
    returns the same and changes nothing. *)
Theorem index_initialises_once (World : Type) (st : State World) :
  index st
  = (Return (stored_of st),
     {| client := client st;
        calls := calls st;
        session := <[ "chat_history" := stored_of st ]> (session st) |})
  ∧ index (index st).2 = (Return (stored_of st), (index st).2).
Proof.
  split; [apply index_run |].
  rewrite (index_run (index st).2), stored_of_index.
  rewrite index_run. unfold set_session. cbn [snd client calls session].
  rewrite insert_insert_eq. reflexivity.
Qed.

(** X11. In every session the routes have produced from an empty one, the
    stored history is a sequence of exchanges: a user record with a
    non-empty message, followed by the model record with the non-empty
    reply or by [None]; no tool-call or function turn is ever stored. *)
Theorem reachable_history_in_pairs (lower : string → string)
    (interp_text : interp_error → string) (World : Type)
    (generate_content :
       Request → World → outcome GenerateContentResponse * World)
    (st : State World) :
  reachable lower interp_text generate_content st →
  turn_pairs (stored_of st).
Proof.
  induction 1 as [w | st _ IH | form st _ IH].
  - unfold stored_of. simpl. rewrite lookup_empty. constructor.
  - rewrite stored_of_index. exact IH.
  - destruct (ask_outcomes lower interp_text World generate_content form st)
      as [[_ ->] | [(e & _ & _ & ->)
                   | (ui & hs & reply & st' & _ & Hne & _ & _ & ->)]];
      cbn [snd]; try exact IH.
    rewrite stored_of_store_turns.
    rewrite (serialize_user_turn ui Hne), serialize_model_turn.
    apply turn_pairs_snoc; [exact IH | exact Hne |].
    destruct (truthy reply) eqn:Hreply; [right | left; reflexivity].
    apply truthy_inv in Hreply as (t & -> & Ht). exists t. auto.
Qed.

Lemma reachable_history_in_pairs_witness :
  turn_pairs
    (stored_of (run_ask (form_of "hola")
                  (boot [Return (text_reply (Some "Buenos días."))])).2).
Proof.
  apply (reachable_history_in_pairs lower_latin1 cpython_text _ scripted).
  apply reachable_ask, reachable_boot.
Defined.

(** X12. After a served [POST /ask] in such a session, the history the
    orchestrator is handed at the next request is the one it was handed
    now, then the user turn, then the model turn when the reply had
    text; that reply is the one sent back in the JSON body. *)
Theorem served_turns_reach_next_request (lower : string → string)
    (interp_text : interp_error → string) (World : Type)
    (generate_content :
       Request → World → outcome GenerateContentResponse * World)
    (form : gmap string string) (user_input : string) (st : State World) :
  reachable lower interp_text generate_content st →
  form !! "user_input" = Some user_input → user_input ≠ "" →
  ∃ reply,
    (ask lower interp_text generate_content form st).1
    = Return ({[ "response" := reply; "user_input" := Some user_input ]},
              200%Z)
    ∧ history_of (ask lower interp_text generate_content form st).2
      = history_of st ++
        user_turn user_input ::
        (if truthy reply then [model_turn reply] else []).
Proof.
  intros Hreach Hform Hne.
  destruct (get_gemini_response_returns lower interp_text World
              generate_content user_input (history_of st) st)
    as (reply & st' & Hreply & _).
  exists reply.
  rewrite (ask_served lower interp_text World generate_content
             form user_input reply st st' Hform Hne
             (reachable_well_keyed lower interp_text World generate_content
                st Hreach) Hreply).
  split; [reflexivity |]. cbn [snd].
  unfold history_of. rewrite stored_of_store_turns, fmap_app, not_none_app.
  f_equal. cbn [fmap list_fmap]. unfold decode_item.
  rewrite !decode_encoded. unfold first_text, user_turn, model_turn.
  cbn [parts role part_text].
  rewrite (truthy_nonempty user_input Hne).
  destruct (truthy reply); reflexivity.
Qed.

Lemma served_turns_reach_next_request_witness :
  ∃ reply,
    (run_ask (form_of "hola")
       (boot [Return (text_reply (Some "Buenos días."))])).1
    = Return ({[ "response" := reply; "user_input" := Some "hola" ]}, 200%Z)
    ∧ history_of (run_ask (form_of "hola")
                    (boot [Return (text_reply (Some "Buenos días."))])).2
      = history_of (boot [Return (text_reply (Some "Buenos días."))]) ++
        user_turn "hola" :: (if truthy reply then [model_turn reply] else []).
Proof.
  apply (served_turns_reach_next_request lower_latin1 cpython_text _ scripted
           (form_of "hola") "hola").
  - apply reachable_boot.
  - vm_compute. reflexivity.
  - discriminate.
Defined.

(** X13. When the stored history holds an item [deserialize_content]
    raises on, a [POST /ask] with a message raises too (the decoding is
    outside the orchestrator's handler), before any external call and
    with the session left as it was. *)
Theorem ask_raises_on_unreadable_history (lower : string → string)
    (interp_text : interp_error → string) (World : Type)
    (generate_content :
       Request → World → outcome GenerateContentResponse * World)
    (form : gmap string string) (user_input : string) (st : State World)
    (item : option flat_record) (e0 : exn) :
  form !! "user_input" = Some user_input → user_input ≠ "" →
  item ∈ stored_of st → deserialize_content item = Raise e0 →
  ∃ e, ask lower interp_text generate_content form st = (Raise e, st).
Proof.
  intros Hform Hne Hin Hitem.
  destruct (comprehension_raises deserialize_content (stored_of st)
              item e0 Hin Hitem) as [e He].
  destruct (ask_outcomes lower interp_text World generate_content form st)
    as [[Hfalse _] | [(e' & _ & _ & ->)
                     | (ui & hs & reply & st' & _ & _ & Hdec & _)]].
  - rewrite Hform, (truthy_nonempty user_input Hne) in Hfalse. discriminate.
  - eauto.
  - rewrite He in Hdec. discriminate.
Qed.

Lemma ask_raises_on_unreadable_history_witness :
  ∃ e, run_ask (form_of "hola") tampered = (Raise e, tampered).
Proof.
  apply (ask_raises_on_unreadable_history lower_latin1 cpython_text _ scripted
           (form_of "hola") "hola" tampered
           (Some {[ "text" := Some "hola" ]}) (Interp (KeyError "role"))).
  - vm_compute. reflexivity.
  - discriminate.
  - replace (stored_of tampered) with [Some ({[ "text" := Some "hola" ]} : flat_record)]
      by (vm_compute; reflexivity).
    apply list_elem_of_here.
  - vm_compute. reflexivity.
Defined.

(** X14. Loading the page before posting changes nothing for the post:
    [POST /ask] after a [GET /] gives the same answer, the same stored
    history, the same external calls and the same service state as
    [POST /ask] alone. *)
Theorem index_then_ask (lower : string → string)
    (interp_text : interp_error → string) (World : Type)
    (generate_content :
       Request → World → outcome GenerateContentResponse * World)
    (form : gmap string string) (st : State World) :
  (ask lower interp_text generate_content form (index st).2).1
  = (ask lower interp_text generate_content form st).1
  ∧ stored_of (ask lower interp_text generate_content form (index st).2).2
    = stored_of (ask lower interp_text generate_content form st).2
  ∧ calls (ask lower interp_text generate_content form (index st).2).2
    = calls (ask lower interp_text generate_content form st).2
  ∧ client (ask lower interp_text generate_content form (index st).2).2
    = client (ask lower interp_text generate_content form st).2.
Proof.
  rewrite index_run. cbn [snd].
  set (st0 := set_session (<[ "chat_history" := stored_of st ]> (session st)) st).
  assert (stored_of st0 = stored_of st) as Hstored.
  { unfold stored_of at 1, st0, set_session. simpl.
    rewrite lookup_insert_eq. reflexivity. }
  destruct (ask_outcomes lower interp_text World generate_content form st0)
    as [[Hin0 ->] | [(e0 & Hin0 & Hdec0 & ->)
                    | (ui0 & hs0 & reply0 & st0' & Hform0 & Hne0 & Hdec0
                       & Hreply0 & ->)]];
    destruct (ask_outcomes lower interp_text World generate_content form st)
      as [[Hin ->] | [(e & Hin & Hdec & ->)
                     | (ui & hs & reply & st' & Hform & Hne & Hdec
                        & Hreply & ->)]];
    cbn [fst snd];
    try (rewrite Hin0 in Hin; discriminate);
    try (rewrite Hform, (truthy_nonempty _ Hne) in Hin0; discriminate);
    try (rewrite Hform0, (truthy_nonempty _ Hne0) in Hin; discriminate);
    try (rewrite Hstored, Hdec in Hdec0; discriminate).
  - auto.
  - rewrite Hstored, Hdec in Hdec0. injection Hdec0 as <-. auto.
  - rewrite Hform in Hform0. injection Hform0 as <-.
    rewrite Hstored, Hdec in Hdec0. injection Hdec0 as <-.
    unfold st0 in Hreply0.
    rewrite get_gemini_response_session_frame, Hreply in Hreply0.
    cbn [fst snd] in Hreply0. injection Hreply0 as <- <-.
    rewrite !stored_of_store_turns, Hstored. auto.
Qed.

(** X15. Over any run of requests to the two routes, from any state, the
    stored history only grows at its end: what was stored stays, in
    place and in order, as a prefix of what is stored later. *)
Theorem history_is_append_only (lower : string → string)
    (interp_text : interp_error → string) (World : Type)
    (generate_content :
       Request → World → outcome GenerateContentResponse * World)
    (st st' : State World) :
  rtc (route_step lower interp_text World generate_content) st st' →
  stored_of st `prefix_of` stored_of st'.
Proof.
  induction 1 as [st | st st1 st' Hstep _ IH]; [reflexivity |].
  etrans; [| exact IH].
  destruct Hstep as [| form].
  - rewrite stored_of_index. reflexivity.
  - destruct (stored_of_ask_grows lower interp_text World generate_content
                form st) as [added ->].
    apply prefix_app_r. reflexivity.
Qed.

Lemma history_is_append_only_witness :
  stored_of (boot [Return (text_reply (Some "Buenos días."))])
  `prefix_of`
  stored_of (run_ask (form_of "hola")
               (boot [Return (text_reply (Some "Buenos días."))])).2.
Proof.
  apply (history_is_append_only lower_latin1 cpython_text _ scripted).
  apply rtc_once, step_ask.
Defined.

(** X16. A served [POST /ask] in a session the routes have produced makes
    one or two external calls; the contents of the first are the decoded
    stored history followed by the user turn of the new message. *)
Theorem ask_sends_history (lower : string → string)
    (interp_text : interp_error → string) (World : Type)
    (generate_content :
       Request → World → outcome GenerateContentResponse * World)
    (form : gmap string string) (user_input : string) (st : State World) :
  reachable lower interp_text generate_content st →
  form !! "user_input" = Some user_input → user_input ≠ "" →
  ∃ first more,
    calls (ask lower interp_text generate_content form st).2
    = calls st ++ first :: more
    ∧ (length more ≤ 1)%nat
    ∧ model first = "gemini-2.5-flash"
    ∧ contents first
      = (Some <$> history_of st) ++
        [Some {| role := Some "user";
                 parts := Some [TextPart (Some user_input)] |}].
Proof.
  intros Hreach Hform Hne.
  destruct (get_gemini_response_run lower interp_text World
              generate_content user_input (history_of st) st)
    as (reply & st' & more & Hreply & _ & Hcalls & Hmore).
  eexists _, more.
  rewrite (ask_served lower interp_text World generate_content
             form user_input reply st st' Hform Hne
             (reachable_well_keyed lower interp_text World generate_content
                st Hreach) Hreply).
  cbn [snd store_turns calls]. split; [exact Hcalls |].
  split; [| split; reflexivity].
  destruct Hmore as [-> | (turn & ->)]; simpl; lia.
Qed.

Lemma ask_sends_history_witness :
  ∃ first more,
    calls (run_ask (form_of "hola")
             (boot [Return (text_reply (Some "Buenos días."))])).2
    = calls (boot [Return (text_reply (Some "Buenos días."))]) ++
      first :: more
    ∧ (length more ≤ 1)%nat
    ∧ model first = "gemini-2.5-flash"
    ∧ contents first
      = (Some <$> history_of (boot [Return (text_reply (Some "Buenos días."))])) ++
        [Some {| role := Some "user"; parts := Some [TextPart (Some "hola")] |}].
Proof.
  apply (ask_sends_history lower_latin1 cpython_text _ scripted
           (form_of "hola") "hola").
  - apply reachable_boot.
  - vm_compute. reflexivity.
  - discriminate.
Defined.
